(** * The abbreviated TLS handshake of the cfssl scanner

    A shallow embedding of [scan/crypto/tls/cfsslscan_handshake.go]:
    [SayHello], its backend [sayHello] and [exchangeKeys], together with the
    part of the connection they drive.  The connection is kept as an explicit
    state that is threaded through every call, so that the order of writes
    and reads can be read off its log. *)

From Stdlib Require Import ZArith Strings.Byte.
From stdpp Require Import base gmap list strings.

Local Open Scope Z_scope.

(** ** Package constants *)

(** Modelled from the spec: the protocol constants are declared in the
    package's [common.go], which is not among the sources.  The spec names
    the historical ceiling (TLS 1.2), the compression method "none", the
    uncompressed point format and the ServerKeyExchange message; the values
    are the ones RFC 5246 assigns. *)
Definition VersionTLS12 : Z := 0x0303.
Definition compressionNone : byte := x00.
Definition pointFormatUncompressed : byte := x00.
Definition recordTypeHandshake : Z := 22.
Definition typeServerKeyExchange : byte := x0c.

(** [uint16(b)] for a [uint8] value [b]. *)
Definition uint16 (b : byte) : Z := Z.of_N (Byte.to_N b).

(** ** Data model *)

(** What the handshake asks of [c.config]: the methods [supportedVersions()],
    [curvePreferences()], [cipherSuites()] and the field [ServerName].  The
    record holds what each of them returns. *)
Module Config.
Record t := mk {
  supportedVersions : list Z;
  ServerName : string;
  curvePreferences : list Z;
  cipherSuites : list Z
}.
End Config.

Module clientHelloMsg.
Record t := mk {
  vers : Z;
  compressionMethods : list byte;
  random : list byte;
  ocspStapling : bool;
  serverName : string;
  supportedCurves : list Z;
  supportedPoints : list byte;
  secureRenegotiationSupported : bool;
  cipherSuites : list Z;
  supportedSignatureAlgorithms : list Z
}.
End clientHelloMsg.

Module serverHelloMsg.
Record t := mk {
  vers : Z;
  random : list byte;
  sessionId : list byte;
  cipherSuite : Z;
  ocspStapling : bool
}.
End serverHelloMsg.

Module certificateMsg.
Record t := mk { certificates : list (list byte) }.
End certificateMsg.

Module certificateStatusMsg.
Record t := mk { response : list byte }.
End certificateStatusMsg.

Module serverKeyExchangeMsg.
Record t := mk { raw : list byte; key : list byte }.
End serverKeyExchangeMsg.

(** The dynamic value behind the [interface{}] that [readHandshake] returns. *)
Inductive handshakeMsg :=
| ServerHello (m : serverHelloMsg.t)
| Certificate (m : certificateMsg.t)
| CertificateStatus (m : certificateStatusMsg.t)
| ServerKeyExchange (m : serverKeyExchangeMsg.t)
| OtherHandshake (typ : byte) (body : list byte).

(** Static types of the pointers a failed type assertion leaves nil. *)
Inductive msgType :=
| serverHelloT
| certificateT
| certificateStatusT
| serverKeyExchangeT.

(** The [interface{}] arguments handed to [unexpectedMessageError]. *)
Inductive value :=
| Uint16Slice (l : list Z)
| StringValue (s : string)
| NilPointer (t : msgType)
| Message (m : handshakeMsg).

Inductive error :=
| transportError (reason : string)
| unexpectedMessageError (wanted got : value).

(** An entry of the capability table; only [EllipticCurve] is consulted. *)
Record CipherSuite := { EllipticCurve : bool }.

(** The zero value a Go map yields for a key it does not hold. *)
Definition zeroCipherSuite : CipherSuite := {| EllipticCurve := false |}.

(** The bytes handed to the record layer.  Encoding belongs to the codec;
    the model keeps the message that was marshalled. *)
Inductive wire := marshal (hello : clientHelloMsg.t).

Inductive event :=
| Wrote (typ : Z) (data : wire)
| ReadMsg (r : string + handshakeMsg).

(** Modelled from the spec: the transport ([conn.go] is not among the
    sources).  A write hands bytes to the record layer and may fail; a read
    blocks for the next handshake message and returns it, typed, or an
    error.  [incoming] is what the following reads will deliver, [writeFault]
    is the failure of the next write, if any, and [log] records every write
    and read in order. *)
Record Conn := mkConn {
  config : Config.t;
  writeFault : option string;
  incoming : list (string + handshakeMsg);
  log : list event
}.

Definition writeRecord (c : Conn) (typ : Z) (data : wire) : option error * Conn :=
  (transportError <$> writeFault c,
   {| config := config c; writeFault := writeFault c;
      incoming := incoming c; log := log c ++ [Wrote typ data] |}).

Definition readHandshake (c : Conn) : (error + handshakeMsg) * Conn :=
  match incoming c with
  | [] =>
      (inl (transportError "EOF"),
       {| config := config c; writeFault := writeFault c;
          incoming := []; log := log c ++ [ReadMsg (inl "EOF"%string)] |})
  | r :: rest =>
      (match r with inl s => inl (transportError s) | inr m => inr m end,
       {| config := config c; writeFault := writeFault c;
          incoming := rest; log := log c ++ [ReadMsg r] |})
  end.

(** The named results of [SayHello]. *)
Record results := mkResults {
  cipherID : Z;
  curveType : Z;
  curveID : Z;
  version : Z;
  certs : list (list byte);
  err : option error
}.

(** A call either returns its named results or panics (index out of range). *)
Inductive outcome :=
| Returned (r : results)
| Panicked.

(** A bare [return] taken with [err] set, before any of [cipherID],
    [curveType], [curveID] and [version] has been assigned. *)
Definition failed (certs : list (list byte)) (e : error) : outcome :=
  Returned {| cipherID := 0; curveType := 0; curveID := 0; version := 0;
              certs := certs; err := Some e |}.

(** ** The handshake *)

(** [sayHello]: the result of [writeRecord] is dropped. *)
Definition sayHello (c : Conn) (hello : clientHelloMsg.t)
  : (error + serverHelloMsg.t) * Conn :=
  let '(_, c) := writeRecord c recordTypeHandshake (marshal hello) in
  let '(r, c) := readHandshake c in
  match r with
  | inl e => (inl e, c)
  | inr msg =>
      match msg with
      | ServerHello serverHello => (inr serverHello, c)
      | _ => (inl (unexpectedMessageError (NilPointer serverHelloT) (Message msg)), c)
      end
  end.

Definition exchangeKeys (c : Conn) : (error + serverKeyExchangeMsg.t) * Conn :=
  let '(r, c) := readHandshake c in
  match r with
  | inl e => (inl e, c)
  | inr msg =>
      match msg with
      | ServerKeyExchange serverKeyExchange => (inr serverKeyExchange, c)
      | _ => (inl (unexpectedMessageError (NilPointer serverKeyExchangeT) (Message msg)), c)
      end
  end.

(** Lines 46-56 of [SayHello]: the Certificate message.  Returns the variable
    [msg] and the certificate list. *)
Definition readCertificate (c : Conn)
  : (error + handshakeMsg * list (list byte)) * Conn :=
  let '(r, c) := readHandshake c in
  match r with
  | inl e => (inl e, c)
  | inr msg =>
      match msg with
      | Certificate certMsg =>
          if (length (certificateMsg.certificates certMsg) =? 0)%nat
          then (inl (unexpectedMessageError (Message msg) (Message msg)), c)
          else (inr (msg, certificateMsg.certificates certMsg), c)
      | _ => (inl (unexpectedMessageError (NilPointer certificateT) (Message msg)), c)
      end
  end.

(** Lines 58-68: the CertificateStatus message, read only when the
    ServerHello acknowledged OCSP stapling.  Returns the variable [msg], which
    the read overwrites. *)
Definition readCertificateStatus (serverHello : serverHelloMsg.t)
    (msg : handshakeMsg) (c : Conn) : (error + handshakeMsg) * Conn :=
  if serverHelloMsg.ocspStapling serverHello then
    let '(r, c) := readHandshake c in
    match r with
    | inl e => (inl e, c)
    | inr msg =>
        match msg with
        | CertificateStatus _ => (inr msg, c)
        | _ => (inl (unexpectedMessageError (NilPointer certificateStatusT) (Message msg)), c)
        end
    end
  else (inr msg, c).

(** Lines 85-89: [curveType] and [curveID] from the key-exchange bytes.
    [CurveID] is a 16-bit type, so the shift wraps at 16 bits. *)
Definition curveOf (k0 k1 k2 : byte) : Z * Z :=
  let curveType := uint16 k0 in
  let curveID :=
    if curveType =? 3
    then Z.lor (Z.shiftl (uint16 k1) 8 mod 2 ^ 16) (uint16 k2)
    else 0 in
  (curveType, curveID).

Section Handshake.

(** The package-level capability table [CFCipherSuites] and the conversion
    [SignatureAndHash.internal] are declared outside this file. *)
Variable CFCipherSuites : gmap Z CipherSuite.
Variable SignatureAndHash : Type.
Variable internal : SignatureAndHash → Z.

(** [CFCipherSuites[id]]: a Go map read, zero value when the key is absent. *)
Definition lookupSuite (id : Z) : CipherSuite :=
  default zeroCipherSuite (CFCipherSuites !! id).

(** Lines 70-93: the optional ServerKeyExchange and the final assignment.
    [msg] is the variable of [SayHello], last assigned by the Certificate or
    CertificateStatus read. *)
Definition finish (serverHello : serverHelloMsg.t) (msg : handshakeMsg)
    (certs : list (list byte)) (c : Conn) : outcome * Conn :=
  if EllipticCurve (lookupSuite (serverHelloMsg.cipherSuite serverHello)) then
    let '(r, c) := exchangeKeys c in
    match r with
    | inl e => (failed certs e, c)
    | inr skx =>
        match serverKeyExchangeMsg.raw skx !! 0%nat with
        | None => (Panicked, c)
        | Some raw0 =>
            if negb (Byte.eqb raw0 typeServerKeyExchange) then
              (failed certs (unexpectedMessageError
                               (Message (ServerKeyExchange skx)) (Message msg)), c)
            else if (length (serverKeyExchangeMsg.key skx) <? 4)%nat then
              (failed certs (unexpectedMessageError
                               (Message (ServerKeyExchange skx)) (Message msg)), c)
            else
              match serverKeyExchangeMsg.key skx with
              | k0 :: k1 :: k2 :: _ =>
                  let '(curveType, curveID) := curveOf k0 k1 k2 in
                  (Returned {| cipherID := serverHelloMsg.cipherSuite serverHello;
                               curveType := curveType;
                               curveID := curveID;
                               version := serverHelloMsg.vers serverHello;
                               certs := certs; err := None |}, c)
              | _ => (Panicked, c)
              end
        end
    end
  else
    (Returned {| cipherID := serverHelloMsg.cipherSuite serverHello;
                 curveType := 0; curveID := 0;
                 version := serverHelloMsg.vers serverHello;
                 certs := certs; err := None |}, c).

(** Lines 18-37: the ClientHello for the most-preferred version [v0]. *)
Definition makeHello (cfg : Config.t) (v0 : Z) (sigAlgs : list Z)
  : clientHelloMsg.t :=
  let clientHelloVersion := if VersionTLS12 <? v0 then VersionTLS12 else v0 in
  {| clientHelloMsg.vers := clientHelloVersion;
     clientHelloMsg.compressionMethods := [compressionNone];
     clientHelloMsg.random := replicate 32 x00;
     clientHelloMsg.ocspStapling := true;
     clientHelloMsg.serverName := Config.ServerName cfg;
     clientHelloMsg.supportedCurves := Config.curvePreferences cfg;
     clientHelloMsg.supportedPoints := [pointFormatUncompressed];
     clientHelloMsg.secureRenegotiationSupported := true;
     clientHelloMsg.cipherSuites := Config.cipherSuites cfg;
     clientHelloMsg.supportedSignatureAlgorithms := sigAlgs |}.

Definition SayHello (c : Conn) (newSigAls : list SignatureAndHash)
  : outcome * Conn :=
  let supportedSignatureAlgorithms := internal <$> newSigAls in
  let supportedVersions := Config.supportedVersions (config c) in
  match supportedVersions with
  | [] =>
      (failed [] (unexpectedMessageError (Uint16Slice supportedVersions)
         (StringValue "tls: no supported versions satisfy MinVersion and MaxVersion")),
       c)
  | v0 :: _ =>
      let hello := makeHello (config c) v0 supportedSignatureAlgorithms in
      let '(r, c) := sayHello c hello in
      match r with
      | inl e => (failed [] e, c)
      | inr serverHello =>
          let '(r, c) := readCertificate c in
          match r with
          | inl e => (failed [] e, c)
          | inr (msg, certs) =>
              let '(r, c) := readCertificateStatus serverHello msg c in
              match r with
              | inl e => (failed certs e, c)
              | inr msg => finish serverHello msg certs c
              end
          end
      end
  end.

End Handshake.

Arguments SayHello CFCipherSuites {SignatureAndHash} internal c newSigAls.

(** ** Reading the log *)

(** The records written, in order. *)
Definition writes (l : list event) : list (Z * wire) :=
  omap (λ e, match e with Wrote typ data => Some (typ, data) | ReadMsg _ => None end) l.

(** What the reads delivered, in order. *)
Definition reads (l : list event) : list (string + handshakeMsg) :=
  omap (λ e, match e with ReadMsg r => Some r | Wrote _ _ => None end) l.

(** The CertificateStatus a conforming peer sends after its Certificate:
    present exactly when its ServerHello acknowledged stapling. *)
Definition statusFlight (serverHello : serverHelloMsg.t)
    (status : certificateStatusMsg.t) : list (string + handshakeMsg) :=
  if serverHelloMsg.ocspStapling serverHello
  then [inr (CertificateStatus status)]
  else [].

(** ** Classes of errors *)



(** ** Sample peers *)

Module Sample.

Definition ECDHE_RSA_AES128_GCM : Z := 0xc02f.
Definition RSA_AES128_GCM : Z := 0x009c.

Definition suites : gmap Z CipherSuite :=
  {[ ECDHE_RSA_AES128_GCM := {| EllipticCurve := true |};
     RSA_AES128_GCM := {| EllipticCurve := false |} ]}.

(** A signature and hash pair as two bytes, hash first. *)
Definition internal (sh : byte * byte) : Z :=
  Z.lor (Z.shiftl (uint16 sh.1) 8) (uint16 sh.2).

Definition cfg (versions : list Z) : Config.t :=
  {| Config.supportedVersions := versions;
     Config.ServerName := "example.org";
     Config.curvePreferences := [23; 24];
     Config.cipherSuites := [ECDHE_RSA_AES128_GCM; RSA_AES128_GCM] |}.

(** A fresh connection to a peer that will answer with [script]. *)
Definition dial (versions : list Z) (fault : option string)
    (script : list (string + handshakeMsg)) : Conn :=
  {| config := cfg versions; writeFault := fault; incoming := script; log := [] |}.

Definition hello (suite : Z) (stapling : bool) : serverHelloMsg.t :=
  {| serverHelloMsg.vers := VersionTLS12;
     serverHelloMsg.random := replicate 32 x5a;
     serverHelloMsg.sessionId := [];
     serverHelloMsg.cipherSuite := suite;
     serverHelloMsg.ocspStapling := stapling |}.

Definition cert1 : list byte := [x30; x82; x01; x0a].

Definition chain : certificateMsg.t :=
  {| certificateMsg.certificates := [cert1] |}.

Definition status : certificateStatusMsg.t :=
  {| certificateStatusMsg.response := [x30; x03] |}.

Definition keyExchange (key : list byte) : serverKeyExchangeMsg.t :=
  {| serverKeyExchangeMsg.raw := typeServerKeyExchange :: x00 :: x00 :: x04 :: key;
     serverKeyExchangeMsg.key := key |}.

Definition serverHelloDone : handshakeMsg := OtherHandshake x0e [].

(** secp256r1 as a named curve, followed by the start of the public point. *)
Definition p256 : list byte := [x03; x00; x17; x41; x04].

(** Stapling acknowledged, but the server moves on without a status. *)
Definition skipsStatus : Conn :=
  dial [VersionTLS12] None
    [inr (ServerHello (hello ECDHE_RSA_AES128_GCM true));
     inr (Certificate chain);
     inr (ServerKeyExchange (keyExchange p256));
     inr serverHelloDone].

(** The write fails; the reads still deliver. *)
Definition brokenWrite : Conn :=
  dial [VersionTLS12] (Some "write: broken pipe"%string)
    [inr (ServerHello (hello RSA_AES128_GCM false));
     inr (Certificate chain);
     inr serverHelloDone].

(** Key-exchange data of three bytes. *)
Definition shortKey : Conn :=
  dial [VersionTLS12] None
    [inr (ServerHello (hello ECDHE_RSA_AES128_GCM false));
     inr (Certificate chain);
     inr (ServerKeyExchange (keyExchange [x03; x00; x17]));
     inr serverHelloDone].

(** TLS 1.2, an ECDHE suite, secp256r1, one certificate, no stapling. *)
Definition ecdhePeer (versions : list Z) : Conn :=
  dial versions None
    [inr (ServerHello (hello ECDHE_RSA_AES128_GCM false));
     inr (Certificate chain);
     inr (ServerKeyExchange (keyExchange p256));
     inr serverHelloDone].

(** A suite the capability table does not list, with stapling. *)
Definition unknownSuitePeer : Conn :=
  dial [VersionTLS12] None
    [inr (ServerHello (hello 0x1301 true));
     inr (Certificate chain);
     inr (CertificateStatus status);
     inr (ServerKeyExchange (keyExchange p256))].

(** No candidate version at all; the peer would answer nonetheless. *)
Definition noVersions : Conn :=
  dial [] None
    [inr (ServerHello (hello RSA_AES128_GCM false));
     inr (Certificate chain)].

(** An RSA suite, one certificate, then the end of the flight. *)
Definition rsaPeer : Conn :=
  dial [VersionTLS12] None
    [inr (ServerHello (hello RSA_AES128_GCM false));
     inr (Certificate chain);
     inr serverHelloDone].

(** The peer of [ecdhePeer] on a connection that has seen traffic and whose
    write fails. *)
Definition ecdhePeerAgain (versions : list Z) : Conn :=
  {| config := cfg versions;
     writeFault := Some "write: timeout"%string;
     incoming := incoming (ecdhePeer versions);
     log := [ReadMsg (inl "earlier"%string)] |}.

End Sample.

(** ** Peers that break the handshake *)

Module Peers.

(** Answers with its Certificate right away. *)
Definition skipsHello : Conn :=
  Sample.dial [VersionTLS12] None
    [inr (Certificate Sample.chain); inr Sample.serverHelloDone].

(** The connection breaks after the Certificate. *)
Definition resetAfterCertificate : Conn :=
  Sample.dial [VersionTLS12] None
    [inr (ServerHello (Sample.hello Sample.ECDHE_RSA_AES128_GCM false));
     inr (Certificate Sample.chain);
     inl "read: connection reset"%string;
     inr (ServerKeyExchange (Sample.keyExchange Sample.p256))].

(** Sends the end of its flight where the Certificate belongs. *)
Definition skipsCertificate : Conn :=
  Sample.dial [VersionTLS12] None
    [inr (ServerHello (Sample.hello Sample.RSA_AES128_GCM false));
     inr Sample.serverHelloDone].

(** A Certificate message without a certificate. *)
Definition emptyChain : Conn :=
  Sample.dial [VersionTLS12] None
    [inr (ServerHello (Sample.hello Sample.RSA_AES128_GCM false));
     inr (Certificate {| certificateMsg.certificates := [] |});
     inr Sample.serverHelloDone].

(** An ECDHE suite, but no ServerKeyExchange. *)
Definition skipsKeyExchange : Conn :=
  Sample.dial [VersionTLS12] None
    [inr (ServerHello (Sample.hello Sample.ECDHE_RSA_AES128_GCM false));
     inr (Certificate Sample.chain);
     inr Sample.serverHelloDone].

(** A ServerKeyExchange whose raw encoding starts with the type byte of a
    Certificate. *)
Definition mistyped : serverKeyExchangeMsg.t :=
  {| serverKeyExchangeMsg.raw := x0b :: x00 :: x00 :: x05 :: Sample.p256;
     serverKeyExchangeMsg.key := Sample.p256 |}.

Definition mistypedKeyExchange : Conn :=
  Sample.dial [VersionTLS12] None
    [inr (ServerHello (Sample.hello Sample.ECDHE_RSA_AES128_GCM false));
     inr (Certificate Sample.chain);
     inr (ServerKeyExchange mistyped)].

(** Stapling and an ECDHE suite: the longest flight a probe reads. *)
Definition staplingEcdhe : Conn :=
  Sample.dial [0x0304; VersionTLS12] None
    [inr (ServerHello (Sample.hello Sample.ECDHE_RSA_AES128_GCM true));
     inr (Certificate Sample.chain);
     inr (CertificateStatus Sample.status);
     inr (ServerKeyExchange (Sample.keyExchange Sample.p256));
     inr Sample.serverHelloDone].

End Peers.


(** ** Properties *)

(** A byte widened to 16 bits stays below 256. *)
Lemma uint16_range (b : byte) : 0 ≤ uint16 b < 256.
Proof.
  unfold uint16. pose proof (Byte.to_N_bounded b) as Hb. lia.
Qed.

(** [hi << 8 | lo] on two bytes is the big-endian 16-bit number: the shift
    stays inside 16 bits and the two halves share no bit. *)
Lemma be16 (hi lo : byte) :
  Z.lor (Z.shiftl (uint16 hi) 8 mod 2 ^ 16) (uint16 lo) = 256 * uint16 hi + uint16 lo.
Proof.
  pose proof (uint16_range hi) as Hhi. pose proof (uint16_range lo) as Hlo.
  rewrite Z.shiftl_mul_pow2 by lia.
  rewrite Z.mod_small by lia.
  assert (Hdisj : Z.land (uint16 hi * 2 ^ 8) (uint16 lo) = 0).
  { apply Z.bits_inj'. intros n Hn.
    rewrite Z.land_spec, Z.bits_0.
    destruct (Z.lt_ge_cases n 8) as [Hlt | Hge].
    - rewrite Z.mul_pow2_bits_low by lia. reflexivity.
    - replace (Z.testbit (uint16 lo) n) with false; [apply andb_false_r |].
      symmetry. destruct (Z.eq_dec (uint16 lo) 0) as [-> | Hnz];
        [apply Z.bits_0 |].
      apply Z.bits_above_log2; [lia |].
      apply Z.log2_lt_pow2; [lia |].
      apply Z.lt_le_trans with (2 ^ 8); [lia |].
      apply Z.pow_le_mono_r; lia. }
  rewrite <- Z.lxor_lor by exact Hdisj.
  rewrite <- Z.add_nocarry_lxor by exact Hdisj.
  lia.
Qed.

Lemma writes_app (l k : list event) : writes (l ++ k) = writes l ++ writes k.
Proof. unfold writes. apply omap_app. Qed.

Lemma reads_app (l k : list event) : reads (l ++ k) = reads l ++ reads k.
Proof. unfold reads. apply omap_app. Qed.

Section Properties.

Variable CFCipherSuites : gmap Z CipherSuite.
Variable SignatureAndHash : Type.
Variable internal : SignatureAndHash → Z.

(** Unfolds one read on a connection whose fields are known. *)
Ltac reading :=
  unfold readCertificate, readCertificateStatus, exchangeKeys, readHandshake;
  simpl.

Lemma readHandshake_writes c :
  writes (log (readHandshake c).2) = writes (log c).
Proof.
  unfold readHandshake. destruct (incoming c); simpl;
    rewrite writes_app; simpl; apply app_nil_r.
Qed.

Lemma readCertificate_writes c :
  writes (log (readCertificate c).2) = writes (log c).
Proof.
  unfold readCertificate.
  pose proof (readHandshake_writes c) as H.
  destruct (readHandshake c) as [r c1]; simpl in H.
  repeat case_match; simplify_eq/=; done.
Qed.

Lemma readCertificateStatus_writes serverHello msg c :
  writes (log (readCertificateStatus serverHello msg c).2) = writes (log c).
Proof.
  unfold readCertificateStatus.
  pose proof (readHandshake_writes c) as H.
  destruct (readHandshake c) as [r c1]; simpl in H.
  repeat case_match; simplify_eq/=; done.
Qed.

Lemma finish_writes serverHello msg certs c :
  writes (log (finish CFCipherSuites serverHello msg certs c).2) = writes (log c).
Proof.
  unfold finish, exchangeKeys.
  pose proof (readHandshake_writes c) as H.
  destruct (readHandshake c) as [r c1]; simpl in H.
  repeat case_match; simplify_eq/=; done.
Qed.

(** A probe with a candidate version writes one record, the ClientHello
    built by [makeHello], and nothing else. *)
Lemma SayHello_writes c sigs v0 vs :
  Config.supportedVersions (config c) = v0 :: vs →
  writes (log (SayHello CFCipherSuites internal c sigs).2) =
    writes (log c) ++
    [(recordTypeHandshake, marshal (makeHello (config c) v0 (internal <$> sigs)))].
Proof.
  intros Hv. unfold SayHello. rewrite Hv.
  set (hello := makeHello _ _ _).
  unfold sayHello, writeRecord.
  match goal with |- context [readHandshake ?x] => set (c0 := x) end.
  assert (H0 : writes (log c0) = writes (log c) ++ [(recordTypeHandshake, marshal hello)]).
  { subst c0. simpl. rewrite writes_app. reflexivity. }
  clearbody c0. rewrite <- H0. clear H0 Hv.
  pose proof (readHandshake_writes c0) as H1.
  destruct (readHandshake c0) as [r1 c1]; simpl in H1.
  destruct r1 as [e | [sh | | | |]]; simpl; try done.
  pose proof (readCertificate_writes c1) as H2.
  destruct (readCertificate c1) as [r2 c2]; simpl in H2.
  destruct r2 as [e | [msg certs]]; simpl; [congruence |].
  pose proof (readCertificateStatus_writes sh msg c2) as H3.
  destruct (readCertificateStatus sh msg c2) as [r3 c3]; simpl in H3.
  destruct r3 as [e | msg']; simpl; [congruence |].
  rewrite finish_writes. congruence.
Qed.

(** The outcome of a probe is a function of the configuration and of
    what the peer sends: neither the write fault nor the log enters it. *)
Lemma SayHello_outcome c1 c2 sigs :
  config c1 = config c2 →
  incoming c1 = incoming c2 →
  (SayHello CFCipherSuites internal c1 sigs).1 = (SayHello CFCipherSuites internal c2 sigs).1.
Proof.
  destruct c1 as [cfg1 wf1 inc1 lg1], c2 as [cfg2 wf2 inc2 lg2]; simpl.
  intros -> ->.
  unfold SayHello, sayHello, writeRecord; simpl.
  destruct (Config.supportedVersions cfg2) as [| v0 vs]; [done |].
  reading.
  destruct inc2 as [| [s | [sh | | | |]] inc]; simpl; try done.
  destruct inc as [| [s | [| cm | | |]] inc]; simpl; try done.
  destruct (length (certificateMsg.certificates cm) =? 0)%nat; simpl; [done |].
  unfold finish. reading.
  destruct (serverHelloMsg.ocspStapling sh); simpl.
  - destruct inc as [| [s | [| | st | |]] inc]; simpl; try done.
    destruct (EllipticCurve (lookupSuite CFCipherSuites (serverHelloMsg.cipherSuite sh))); [| done].
    destruct inc as [| [s | [| | | skx |]] inc]; simpl; try done.
    repeat case_match; simplify_eq/=; done.
  - destruct (EllipticCurve (lookupSuite CFCipherSuites (serverHelloMsg.cipherSuite sh))); [| done].
    destruct inc as [| [s | [| | | skx |]] inc]; simpl; try done.
    repeat case_match; simplify_eq/=; done.
Qed.

(** With no candidate version, [SayHello] returns at once with the error
    about the unusable version range, and the connection comes back as it
    was: nothing is logged, so no record was written and no message read,
    and nothing of the peer's script was consumed. *)
Theorem no_versions_fails_before_io c sigs :
  Config.supportedVersions (config c) = [] →
  SayHello CFCipherSuites internal c sigs =
    (failed [] (unexpectedMessageError (Uint16Slice [])
       (StringValue "tls: no supported versions satisfy MinVersion and MaxVersion")),
     c)
  ∧ writes (log (SayHello CFCipherSuites internal c sigs).2) = writes (log c)
  ∧ reads (log (SayHello CFCipherSuites internal c sigs).2) = reads (log c).
Proof.
  intros Hv. unfold SayHello. rewrite Hv. done.
Qed.

(** C3: with at least one candidate version, the one record a probe writes
    is a ClientHello whose legacy version is at most TLS 1.2: the
    most-preferred candidate when that is at most TLS 1.2, and TLS 1.2
    otherwise, whatever the remaining candidates are. *)
Theorem hello_version_capped c sigs v0 vs :
  Config.supportedVersions (config c) = v0 :: vs →
  ∃ hello,
    writes (log (SayHello CFCipherSuites internal c sigs).2) =
      writes (log c) ++ [(recordTypeHandshake, marshal hello)]
    ∧ clientHelloMsg.vers hello ≤ VersionTLS12
    ∧ (v0 ≤ VersionTLS12 → clientHelloMsg.vers hello = v0)
    ∧ (VersionTLS12 < v0 → clientHelloMsg.vers hello = VersionTLS12).
Proof.
  intros Hv. eexists. split; [eapply SayHello_writes; exact Hv |].
  unfold makeHello; simpl.
  destruct (Z.ltb_spec VersionTLS12 v0); repeat split; lia.
Qed.

(** C9, as the code has it: the ClientHello a probe writes carries a random
    of 32 bytes that are all zero, the same for every probe, and two probes
    with the same configuration against a peer that answers the same end
    in the same outcome, whatever else differs between the connections. *)
Theorem hello_random_zero_and_outcome_fixed c1 c2 sigs v0 vs :
  Config.supportedVersions (config c1) = v0 :: vs →
  config c2 = config c1 →
  incoming c2 = incoming c1 →
  (∃ h1 h2,
      writes (log (SayHello CFCipherSuites internal c1 sigs).2) =
        writes (log c1) ++ [(recordTypeHandshake, marshal h1)]
      ∧ writes (log (SayHello CFCipherSuites internal c2 sigs).2) =
        writes (log c2) ++ [(recordTypeHandshake, marshal h2)]
      ∧ length (clientHelloMsg.random h1) = 32%nat
      ∧ clientHelloMsg.random h1 = replicate 32 x00
      ∧ clientHelloMsg.random h2 = clientHelloMsg.random h1)
  ∧ (SayHello CFCipherSuites internal c1 sigs).1 = (SayHello CFCipherSuites internal c2 sigs).1.
Proof.
  intros Hv Hc Hi. split.
  - do 2 eexists. split; [eapply SayHello_writes; exact Hv |].
    split; [eapply SayHello_writes; rewrite Hc; exact Hv |].
    done.
  - apply SayHello_outcome; done.
Qed.

(** An error out of the last stage leaves the four scalars zero and hands
    back the certificate list it was given. *)
Lemma finish_error serverHello msg certs0 c r c' :
  finish CFCipherSuites serverHello msg certs0 c = (Returned r, c') →
  is_Some (err r) →
  cipherID r = 0 ∧ curveType r = 0 ∧ curveID r = 0 ∧ version r = 0
  ∧ certs r = certs0.
Proof.
  unfold finish, exchangeKeys, failed.
  destruct (EllipticCurve (lookupSuite CFCipherSuites (serverHelloMsg.cipherSuite serverHello))).
  - destruct (readHandshake c) as [[e | m] c1].
    + intros [= <- <-] _. done.
    + destruct m as [| | | skx |]; try (intros [= <- <-] _; done).
      destruct (serverKeyExchangeMsg.raw skx !! 0%nat) as [raw0 |]; [| done].
      destruct (negb (Byte.eqb raw0 typeServerKeyExchange));
        [intros [= <- <-] _; done |].
      destruct (length (serverKeyExchangeMsg.key skx) <? 4)%nat;
        [intros [= <- <-] _; done |].
      destruct (serverKeyExchangeMsg.key skx) as [| k0 [| k1 [| k2 ks]]];
        try done.
      destruct (curveOf k0 k1 k2) as [ct cid].
      intros [= <- <-] [e He]. done.
  - intros [= <- <-] [e He]. done.
Qed.

(** C1, as the code has it: when a probe returns an error, [cipherID],
    [curveType], [curveID] and [version] are zero.  [certs] is zero when the
    error arises up to and including the Certificate step; once a
    Certificate message with at least one entry has been accepted, an error
    of a later step (CertificateStatus, ServerKeyExchange) comes with the
    certificate list that was received. *)
Theorem error_leaves_scalars_zero c sigs r c' :
  SayHello CFCipherSuites internal c sigs = (Returned r, c') →
  is_Some (err r) →
  cipherID r = 0 ∧ curveType r = 0 ∧ curveID r = 0 ∧ version r = 0
  ∧ certs r =
      match Config.supportedVersions (config c), incoming c with
      | _ :: _, inr (ServerHello _) :: inr (Certificate certMsg) :: _ =>
          certificateMsg.certificates certMsg
      | _, _ => []
      end.
Proof.
  destruct c as [cfg wf inc lg]; simpl.
  unfold SayHello, sayHello, writeRecord; simpl.
  destruct (Config.supportedVersions cfg) as [| v0 vs];
    [intros [= <- <-] _; done |].
  reading.
  destruct inc as [| [s | [sh | | | |]] inc]; simpl;
    try (intros [= <- <-] _; done).
  destruct inc as [| [s | [| cm | | |]] inc]; simpl;
    try (intros [= <- <-] _; done).
  destruct (Nat.eqb_spec (length (certificateMsg.certificates cm)) 0) as [Hz | Hnz];
    simpl.
  { intros [= <- <-] _. simpl. apply nil_length_inv in Hz. rewrite Hz. done. }
  destruct (serverHelloMsg.ocspStapling sh); simpl.
  - destruct inc as [| [s | [| | st | |]] inc]; simpl;
      try (intros [= <- <-] _; done).
    apply finish_error.
  - apply finish_error.
Qed.

(** Outside the elliptic-curve set the last stage reads nothing and copies
    the suite and the version out of the ServerHello. *)
Lemma finish_not_ec serverHello msg certs0 c :
  EllipticCurve (lookupSuite CFCipherSuites (serverHelloMsg.cipherSuite serverHello)) = false →
  finish CFCipherSuites serverHello msg certs0 c =
    (Returned {| cipherID := serverHelloMsg.cipherSuite serverHello;
                 curveType := 0; curveID := 0;
                 version := serverHelloMsg.vers serverHello;
                 certs := certs0; err := None |}, c).
Proof. intros Hec. unfold finish. rewrite Hec. reflexivity. Qed.

(** Flattens the log of reads of a connection that has been run. *)
Ltac read_log :=
  simpl; rewrite ?reads_app; simpl; rewrite <- ?app_assoc; simpl.

(** C8: when a probe succeeds and the suite of the ServerHello is not an
    elliptic-curve suite according to the capability table, [curveType] and
    [curveID] are zero whatever the peer sent after the ServerHello, and
    [cipherID] and [version] are the suite and version of the ServerHello. *)
Theorem non_ec_suite_has_no_curve c sigs sh rest r c' :
  incoming c = inr (ServerHello sh) :: rest →
  EllipticCurve (lookupSuite CFCipherSuites (serverHelloMsg.cipherSuite sh)) = false →
  SayHello CFCipherSuites internal c sigs = (Returned r, c') →
  err r = None →
  curveType r = 0 ∧ curveID r = 0
  ∧ cipherID r = serverHelloMsg.cipherSuite sh
  ∧ version r = serverHelloMsg.vers sh.
Proof.
  destruct c as [cfg wf inc lg]; simpl. intros -> Hec.
  unfold SayHello, sayHello, writeRecord; simpl.
  destruct (Config.supportedVersions cfg) as [| v0 vs];
    [intros [= <- <-]; done |].
  reading.
  destruct rest as [| [s | [| cm | | |]] inc]; simpl;
    try (intros [= <- <-]; done).
  destruct (length (certificateMsg.certificates cm) =? 0)%nat; simpl;
    [intros [= <- <-]; done |].
  destruct (serverHelloMsg.ocspStapling sh); simpl.
  - destruct inc as [| [s | [| | st | |]] inc]; simpl;
      try (intros [= <- <-]; done).
    rewrite finish_not_ec by exact Hec. intros [= <- <-] _. done.
  - rewrite finish_not_ec by exact Hec. intros [= <- <-] _. done.
Qed.

(** C10: a suite that the capability table does not hold reads as the zero
    entry, so it counts as not elliptic-curve.  Against a peer that sends
    ServerHello, a non-empty Certificate and, if it acknowledged stapling, a
    CertificateStatus, the probe then succeeds with [curveType] and
    [curveID] zero, and it has read exactly those messages: whatever
    follows, a ServerKeyExchange included, is left unread. *)
Theorem unknown_suite_reads_no_key_exchange c sigs v0 vs sh cm st rest :
  Config.supportedVersions (config c) = v0 :: vs →
  incoming c =
    inr (ServerHello sh) :: inr (Certificate cm) :: statusFlight sh st ++ rest →
  certificateMsg.certificates cm ≠ [] →
  CFCipherSuites !! serverHelloMsg.cipherSuite sh = None →
  lookupSuite CFCipherSuites (serverHelloMsg.cipherSuite sh) = zeroCipherSuite
  ∧ ∃ c',
      SayHello CFCipherSuites internal c sigs =
        (Returned {| cipherID := serverHelloMsg.cipherSuite sh;
                     curveType := 0; curveID := 0;
                     version := serverHelloMsg.vers sh;
                     certs := certificateMsg.certificates cm;
                     err := None |}, c')
      ∧ incoming c' = rest
      ∧ reads (log c') =
          reads (log c) ++
          inr (ServerHello sh) :: inr (Certificate cm) :: statusFlight sh st.
Proof.
  destruct c as [cfg wf inc lg]; simpl. intros Hv -> Hcm Hnone.
  assert (Hzero : lookupSuite CFCipherSuites (serverHelloMsg.cipherSuite sh)
                  = zeroCipherSuite).
  { unfold lookupSuite. rewrite Hnone. reflexivity. }
  split; [exact Hzero |].
  assert (Hec : EllipticCurve (lookupSuite CFCipherSuites (serverHelloMsg.cipherSuite sh)) = false).
  { simpl. rewrite Hzero. reflexivity. }
  unfold SayHello, sayHello, writeRecord; simpl. rewrite Hv.
  reading.
  destruct (Nat.eqb_spec (length (certificateMsg.certificates cm)) 0) as [Hz | _];
    [apply nil_length_inv in Hz; done |].
  unfold statusFlight.
  destruct (serverHelloMsg.ocspStapling sh); simpl;
    rewrite finish_not_ec by exact Hec;
    eexists; (split; [reflexivity |]); split; [reflexivity | | reflexivity |];
    read_log; reflexivity.
Qed.

(** C6: when the ServerHello acknowledges stapling and the message after the
    Certificate is not a CertificateStatus, the probe fails on that message
    with an unexpected-message error naming it.  It has performed three
    reads, the last one being that message; what the peer sent next stays
    unread, so no read for a ServerKeyExchange took place. *)
Theorem missing_status_stops_before_key_exchange c sigs v0 vs sh cm m rest :
  Config.supportedVersions (config c) = v0 :: vs →
  incoming c =
    inr (ServerHello sh) :: inr (Certificate cm) :: inr m :: rest →
  serverHelloMsg.ocspStapling sh = true →
  certificateMsg.certificates cm ≠ [] →
  (∀ st, m ≠ CertificateStatus st) →
  ∃ r c',
    SayHello CFCipherSuites internal c sigs = (Returned r, c')
    ∧ err r = Some (unexpectedMessageError
                      (NilPointer certificateStatusT) (Message m))
    ∧ incoming c' = rest
    ∧ reads (log c') =
        reads (log c) ++
        [inr (ServerHello sh); inr (Certificate cm); inr m].
Proof.
  destruct c as [cfg wf inc lg]; simpl. intros Hv -> Hocsp Hcm Hm.
  unfold SayHello, sayHello, writeRecord; simpl. rewrite Hv.
  reading.
  destruct (Nat.eqb_spec (length (certificateMsg.certificates cm)) 0) as [Hz | _];
    [apply nil_length_inv in Hz; done |].
  rewrite Hocsp; simpl.
  destruct m as [| | st | |];
    try (do 2 eexists; split; [reflexivity |]; split; [reflexivity |];
         split; [reflexivity |]; read_log; reflexivity).
  destruct (Hm st); reflexivity.
Qed.

(** C5: on the elliptic-curve branch, a ServerKeyExchange with at least four
    bytes of key-exchange data makes the probe succeed with [curveType] the
    first of these bytes.  [curveID] is the big-endian 16-bit number held by
    the second and third byte when the first byte is 3, and zero for every
    other first byte. *)
Theorem curve_read_from_key_exchange
    c sigs v0 vs sh cm st skx k0 k1 k2 k3 ks rest :
  Config.supportedVersions (config c) = v0 :: vs →
  incoming c =
    inr (ServerHello sh) :: inr (Certificate cm) ::
    statusFlight sh st ++ inr (ServerKeyExchange skx) :: rest →
  certificateMsg.certificates cm ≠ [] →
  EllipticCurve (lookupSuite CFCipherSuites (serverHelloMsg.cipherSuite sh)) = true →
  serverKeyExchangeMsg.raw skx !! 0%nat = Some typeServerKeyExchange →
  serverKeyExchangeMsg.key skx = k0 :: k1 :: k2 :: k3 :: ks →
  ∃ r c',
    SayHello CFCipherSuites internal c sigs = (Returned r, c')
    ∧ err r = None
    ∧ curveType r = uint16 k0
    ∧ curveID r = (if uint16 k0 =? 3 then 256 * uint16 k1 + uint16 k2 else 0).
Proof.
  destruct c as [cfg wf inc lg]; simpl. intros Hv -> Hcm Hec Hraw Hkey.
  unfold SayHello, sayHello, writeRecord; simpl. rewrite Hv.
  reading.
  destruct (Nat.eqb_spec (length (certificateMsg.certificates cm)) 0) as [Hz | _];
    [apply nil_length_inv in Hz; done |].
  assert (Hfin : ∀ msg c0 rest0,
    incoming c0 = inr (ServerKeyExchange skx) :: rest0 →
    ∃ r c',
      finish CFCipherSuites sh msg (certificateMsg.certificates cm) c0
        = (Returned r, c')
      ∧ err r = None
      ∧ curveType r = uint16 k0
      ∧ curveID r = (if uint16 k0 =? 3 then 256 * uint16 k1 + uint16 k2 else 0)).
  { intros msg c0 rest0 Hin.
    unfold finish, exchangeKeys, readHandshake. simpl in Hec.
    rewrite Hec, Hin, Hraw, Hkey. simpl.
    unfold curveOf. rewrite be16.
    do 2 eexists. split; [reflexivity |]. simpl. done. }
  unfold statusFlight.
  destruct (serverHelloMsg.ocspStapling sh); simpl; eapply Hfin; reflexivity.
Qed.

(** *** Violations of the handshake grammar

    What each refusal reports.  The first three hand the message that was
    read to [unexpectedMessageError]; the refusal of short key-exchange data
    hands over the variable [msg] of [SayHello], which [exchangeKeys] does not
    assign. *)

Lemma not_certificate_is_refused c sigs v0 vs sh m rest :
  Config.supportedVersions (config c) = v0 :: vs →
  incoming c = inr (ServerHello sh) :: inr m :: rest →
  (∀ cm, m ≠ Certificate cm) →
  (SayHello CFCipherSuites internal c sigs).1 =
    failed [] (unexpectedMessageError (NilPointer certificateT) (Message m)).
Proof.
  destruct c as [cfg wf inc lg]; simpl. intros Hv -> Hm.
  unfold SayHello, sayHello, writeRecord; simpl. rewrite Hv. reading.
  destruct m as [| cm | | |]; try reflexivity.
  destruct (Hm cm); reflexivity.
Qed.

Lemma empty_certificate_is_refused c sigs v0 vs sh cm rest :
  Config.supportedVersions (config c) = v0 :: vs →
  incoming c = inr (ServerHello sh) :: inr (Certificate cm) :: rest →
  certificateMsg.certificates cm = [] →
  (SayHello CFCipherSuites internal c sigs).1 =
    failed [] (unexpectedMessageError (Message (Certificate cm))
                                      (Message (Certificate cm))).
Proof.
  destruct c as [cfg wf inc lg]; simpl. intros Hv -> Hcm.
  unfold SayHello, sayHello, writeRecord; simpl. rewrite Hv. reading.
  rewrite Hcm. reflexivity.
Qed.

Lemma not_key_exchange_is_refused c sigs v0 vs sh cm st m rest :
  Config.supportedVersions (config c) = v0 :: vs →
  incoming c =
    inr (ServerHello sh) :: inr (Certificate cm) ::
    statusFlight sh st ++ inr m :: rest →
  certificateMsg.certificates cm ≠ [] →
  EllipticCurve (lookupSuite CFCipherSuites (serverHelloMsg.cipherSuite sh)) = true →
  (∀ skx, m ≠ ServerKeyExchange skx) →
  (SayHello CFCipherSuites internal c sigs).1 =
    failed (certificateMsg.certificates cm)
      (unexpectedMessageError (NilPointer serverKeyExchangeT) (Message m)).
Proof.
  destruct c as [cfg wf inc lg]; simpl. intros Hv -> Hcm Hec Hm.
  unfold SayHello, sayHello, writeRecord; simpl. rewrite Hv. reading.
  destruct (Nat.eqb_spec (length (certificateMsg.certificates cm)) 0) as [Hz | _];
    [apply nil_length_inv in Hz; done |].
  simpl in Hec. unfold statusFlight, finish, exchangeKeys, readHandshake.
  destruct (serverHelloMsg.ocspStapling sh); simpl; rewrite Hec; simpl;
    (destruct m as [| | | skx |]; try reflexivity; destruct (Hm skx); reflexivity).
Qed.

Lemma short_key_names_previous_message c sigs v0 vs sh cm st skx rest :
  Config.supportedVersions (config c) = v0 :: vs →
  incoming c =
    inr (ServerHello sh) :: inr (Certificate cm) ::
    statusFlight sh st ++ inr (ServerKeyExchange skx) :: rest →
  certificateMsg.certificates cm ≠ [] →
  EllipticCurve (lookupSuite CFCipherSuites (serverHelloMsg.cipherSuite sh)) = true →
  serverKeyExchangeMsg.raw skx !! 0%nat = Some typeServerKeyExchange →
  (length (serverKeyExchangeMsg.key skx) < 4)%nat →
  (SayHello CFCipherSuites internal c sigs).1 =
    failed (certificateMsg.certificates cm)
      (unexpectedMessageError
         (Message (ServerKeyExchange skx))
         (Message (if serverHelloMsg.ocspStapling sh
                   then CertificateStatus st else Certificate cm))).
Proof.
  destruct c as [cfg wf inc lg]; simpl. intros Hv -> Hcm Hec Hraw Hlen.
  unfold SayHello, sayHello, writeRecord; simpl. rewrite Hv. reading.
  destruct (Nat.eqb_spec (length (certificateMsg.certificates cm)) 0) as [Hz | _];
    [apply nil_length_inv in Hz; done |].
  simpl in Hec. unfold statusFlight, finish, exchangeKeys, readHandshake.
  apply Nat.ltb_lt in Hlen.
  destruct (serverHelloMsg.ocspStapling sh); simpl;
    rewrite Hec; simpl; rewrite Hraw; simpl; rewrite Hlen; reflexivity.
Qed.

End Properties.

(** ** The properties on the sample peers *)

Lemma no_versions_fails_before_io_witness :
  Config.supportedVersions (config Sample.noVersions) = []
  ∧ SayHello Sample.suites Sample.internal Sample.noVersions [] =
      (failed [] (unexpectedMessageError (Uint16Slice [])
         (StringValue "tls: no supported versions satisfy MinVersion and MaxVersion")),
       Sample.noVersions)
  ∧ writes (log (SayHello Sample.suites Sample.internal Sample.noVersions []).2) = []
  ∧ reads (log (SayHello Sample.suites Sample.internal Sample.noVersions []).2) = [].
Proof.
  split; [reflexivity |].
  apply (no_versions_fails_before_io
           Sample.suites _ Sample.internal Sample.noVersions []).
  reflexivity.
Defined.

Lemma hello_version_capped_witness :
  Config.supportedVersions (config (Sample.ecdhePeer [0x0304; 0x0303]))
    = [0x0304; 0x0303]
  ∧ ∃ hello,
      writes (log (SayHello Sample.suites Sample.internal
                     (Sample.ecdhePeer [0x0304; 0x0303]) []).2) =
        [(recordTypeHandshake, marshal hello)]
      ∧ clientHelloMsg.vers hello ≤ VersionTLS12
      ∧ (0x0304 ≤ VersionTLS12 → clientHelloMsg.vers hello = 0x0304)
      ∧ (VersionTLS12 < 0x0304 → clientHelloMsg.vers hello = VersionTLS12).
Proof.
  split; [reflexivity |].
  apply (hello_version_capped Sample.suites _ Sample.internal
           (Sample.ecdhePeer [0x0304; 0x0303]) [] 0x0304 [0x0303]).
  reflexivity.
Defined.

Lemma hello_random_zero_and_outcome_fixed_witness :
  Config.supportedVersions (config (Sample.ecdhePeer [VersionTLS12]))
    = [VersionTLS12]
  ∧ config (Sample.ecdhePeerAgain [VersionTLS12])
    = config (Sample.ecdhePeer [VersionTLS12])
  ∧ incoming (Sample.ecdhePeerAgain [VersionTLS12])
    = incoming (Sample.ecdhePeer [VersionTLS12])
  ∧ (∃ h1 h2,
        writes (log (SayHello Sample.suites Sample.internal
                       (Sample.ecdhePeer [VersionTLS12]) [(x04, x01)]).2) =
          [(recordTypeHandshake, marshal h1)]
        ∧ writes (log (SayHello Sample.suites Sample.internal
                         (Sample.ecdhePeerAgain [VersionTLS12]) [(x04, x01)]).2) =
          [(recordTypeHandshake, marshal h2)]
        ∧ length (clientHelloMsg.random h1) = 32%nat
        ∧ clientHelloMsg.random h1 = replicate 32 x00
        ∧ clientHelloMsg.random h2 = clientHelloMsg.random h1)
  ∧ (SayHello Sample.suites Sample.internal
       (Sample.ecdhePeer [VersionTLS12]) [(x04, x01)]).1
    = (SayHello Sample.suites Sample.internal
         (Sample.ecdhePeerAgain [VersionTLS12]) [(x04, x01)]).1.
Proof.
  split; [reflexivity |]. split; [reflexivity |]. split; [reflexivity |].
  apply (hello_random_zero_and_outcome_fixed Sample.suites _ Sample.internal
           (Sample.ecdhePeer [VersionTLS12])
           (Sample.ecdhePeerAgain [VersionTLS12])
           [(x04, x01)] VersionTLS12 []);
    reflexivity.
Defined.

Lemma error_leaves_scalars_zero_witness :
  ∃ r c',
    SayHello Sample.suites Sample.internal Sample.skipsStatus [] = (Returned r, c')
    ∧ is_Some (err r)
    ∧ cipherID r = 0 ∧ curveType r = 0 ∧ curveID r = 0 ∧ version r = 0
    ∧ certs r = [Sample.cert1].
Proof.
  do 2 eexists. split; [reflexivity |]. split; [eexists; reflexivity |].
  apply (error_leaves_scalars_zero Sample.suites _ Sample.internal
           Sample.skipsStatus [] _ _ eq_refl).
  eexists; reflexivity.
Defined.

Lemma non_ec_suite_has_no_curve_witness :
  ∃ r c',
    SayHello Sample.suites Sample.internal Sample.rsaPeer [] = (Returned r, c')
    ∧ err r = None
    ∧ curveType r = 0 ∧ curveID r = 0
    ∧ cipherID r = Sample.RSA_AES128_GCM
    ∧ version r = VersionTLS12.
Proof.
  do 2 eexists. split; [reflexivity |]. split; [reflexivity |].
  apply (non_ec_suite_has_no_curve Sample.suites _ Sample.internal
           Sample.rsaPeer [] (Sample.hello Sample.RSA_AES128_GCM false) _ _ _
           eq_refl eq_refl eq_refl eq_refl).
Defined.

Lemma unknown_suite_reads_no_key_exchange_witness :
  Sample.suites !! 0x1301 = None
  ∧ lookupSuite Sample.suites 0x1301 = zeroCipherSuite
  ∧ ∃ c',
      SayHello Sample.suites Sample.internal Sample.unknownSuitePeer [] =
        (Returned {| cipherID := 0x1301; curveType := 0; curveID := 0;
                     version := VersionTLS12; certs := [Sample.cert1];
                     err := None |}, c')
      ∧ incoming c' = [inr (ServerKeyExchange (Sample.keyExchange Sample.p256))]
      ∧ reads (log c') =
          [inr (ServerHello (Sample.hello 0x1301 true));
           inr (Certificate Sample.chain);
           inr (CertificateStatus Sample.status)].
Proof.
  split; [reflexivity |].
  apply (unknown_suite_reads_no_key_exchange Sample.suites _ Sample.internal
           Sample.unknownSuitePeer [] VersionTLS12 []
           (Sample.hello 0x1301 true) Sample.chain Sample.status
           [inr (ServerKeyExchange (Sample.keyExchange Sample.p256))]
           eq_refl eq_refl).
  - discriminate.
  - reflexivity.
Defined.

Lemma missing_status_stops_before_key_exchange_witness :
  ∃ r c',
    SayHello Sample.suites Sample.internal Sample.skipsStatus [] = (Returned r, c')
    ∧ err r = Some (unexpectedMessageError (NilPointer certificateStatusT)
                      (Message (ServerKeyExchange (Sample.keyExchange Sample.p256))))
    ∧ incoming c' = [inr Sample.serverHelloDone]
    ∧ reads (log c') =
        [inr (ServerHello (Sample.hello Sample.ECDHE_RSA_AES128_GCM true));
         inr (Certificate Sample.chain);
         inr (ServerKeyExchange (Sample.keyExchange Sample.p256))].
Proof.
  apply (missing_status_stops_before_key_exchange Sample.suites _ Sample.internal
           Sample.skipsStatus [] VersionTLS12 []
           (Sample.hello Sample.ECDHE_RSA_AES128_GCM true) Sample.chain
           (ServerKeyExchange (Sample.keyExchange Sample.p256))
           [inr Sample.serverHelloDone]
           eq_refl eq_refl eq_refl).
  - discriminate.
  - discriminate.
Defined.

Lemma curve_read_from_key_exchange_witness :
  ∃ r c',
    SayHello Sample.suites Sample.internal (Sample.ecdhePeer [VersionTLS12]) []
      = (Returned r, c')
    ∧ err r = None
    ∧ curveType r = 3
    ∧ curveID r = 23.
Proof.
  apply (curve_read_from_key_exchange Sample.suites _ Sample.internal
           (Sample.ecdhePeer [VersionTLS12]) [] VersionTLS12 []
           (Sample.hello Sample.ECDHE_RSA_AES128_GCM false) Sample.chain
           Sample.status (Sample.keyExchange Sample.p256)
           x03 x00 x17 x41 [x04] [inr Sample.serverHelloDone]
           eq_refl eq_refl).
  - discriminate.
  - reflexivity.
  - reflexivity.
  - reflexivity.
Defined.

(** C1: the peer acknowledges stapling and then sends its key exchange
    instead of a status.  The probe returns an error, and with it the
    certificate list it had accepted one step earlier. *)
Lemma error_returned_with_certificates :
  ∃ r c',
    SayHello Sample.suites Sample.internal Sample.skipsStatus [] = (Returned r, c')
    ∧ is_Some (err r)
    ∧ certs r = [Sample.cert1]
    ∧ certs r ≠ [].
Proof.
  do 2 eexists. split; [reflexivity |]. simpl.
  split; [eexists; reflexivity |]. split; [reflexivity | discriminate].
Qed.

(** C9: two probes, over different connections to different peers, write a
    ClientHello with one and the same random. *)
Lemma hello_random_repeats :
  ∃ h1 h2,
    writes (log (SayHello Sample.suites Sample.internal
                   (Sample.ecdhePeer [VersionTLS12]) []).2)
      = [(recordTypeHandshake, marshal h1)]
    ∧ writes (log (SayHello Sample.suites Sample.internal
                     Sample.unknownSuitePeer [(x04, x01)]).2)
      = [(recordTypeHandshake, marshal h2)]
    ∧ clientHelloMsg.random h1 = clientHelloMsg.random h2.
Proof.
  do 2 eexists. split; [reflexivity |]. split; [reflexivity |]. reflexivity.
Qed.

(** C2: the write of the ClientHello reports a transport error, and the
    probe goes on to read and returns a complete result without an error. *)
Theorem write_fault_goes_unnoticed :
  (writeRecord Sample.brokenWrite recordTypeHandshake
     (marshal (makeHello (config Sample.brokenWrite) VersionTLS12 []))).1
    = Some (transportError "write: broken pipe")
  ∧ ∃ c',
      SayHello Sample.suites Sample.internal Sample.brokenWrite [] =
        (Returned {| cipherID := Sample.RSA_AES128_GCM;
                     curveType := 0; curveID := 0;
                     version := VersionTLS12;
                     certs := [Sample.cert1];
                     err := None |}, c')
      ∧ reads (log c') =
          [inr (ServerHello (Sample.hello Sample.RSA_AES128_GCM false));
           inr (Certificate Sample.chain)].
Proof.
  split; [reflexivity |]. eexists. split; reflexivity.
Qed.

(** C4: key-exchange data of three bytes is refused with an
    unexpected-message error, but the message the error carries as received
    is the Certificate read before, not the ServerKeyExchange at fault. *)
Theorem short_key_error_carries_earlier_message :
  (SayHello Sample.suites Sample.internal Sample.shortKey []).1 =
    failed [Sample.cert1]
      (unexpectedMessageError
         (Message (ServerKeyExchange (Sample.keyExchange [x03; x00; x17])))
         (Message (Certificate Sample.chain)))
  ∧ Message (Certificate Sample.chain)
    ≠ Message (ServerKeyExchange (Sample.keyExchange [x03; x00; x17])).
Proof.
  split; [reflexivity | discriminate].
Qed.

(** The decoding examples of the elliptic-curve branch. *)
Example named_curve_p256 : curveOf x03 x00 x17 = (3, 23).
Proof. reflexivity. Qed.

Example explicit_prime_has_no_curve : curveOf x01 x00 x17 = (1, 0).
Proof. reflexivity. Qed.

(** End to end: TLS 1.2, an ECDHE suite, secp256r1, one certificate, no
    stapling. *)
Example ecdhe_probe :
  (SayHello Sample.suites Sample.internal
     (Sample.ecdhePeer [0x0304; VersionTLS12]) [(x04, x01)]).1 =
    Returned {| cipherID := Sample.ECDHE_RSA_AES128_GCM;
                curveType := 3; curveID := 23;
                version := VersionTLS12;
                certs := [Sample.cert1];
                err := None |}.
Proof. reflexivity. Qed.

(** ** The run of a probe as a whole *)

Section Runs.

Variable CFCipherSuites : gmap Z CipherSuite.
Variable SignatureAndHash : Type.
Variable internal : SignatureAndHash → Z.

(** Starts a probe on a connection with a candidate version. *)
Ltac start Hv :=
  unfold SayHello, sayHello, writeRecord; simpl; rewrite Hv;
  unfold readCertificate, readCertificateStatus, finish, exchangeKeys,
    readHandshake; simpl.

(** Closes a log equation once every read is known. *)
Ltac log_eq := simpl; rewrite <- ?app_assoc; simpl; reflexivity.

(** A run that has come to its end: the log, then the rest. *)
Ltac leaf :=
  solve [eexists; split; [log_eq |];
         repeat split; first [reflexivity | simpl; lia | done]].

(** With a candidate version, a probe first writes its one record, the
    ClientHello, and from then on only reads: at least once and at most four
    times.  It leaves the configuration and the write fault of the
    connection as they were. *)
Theorem one_write_then_up_to_four_reads c sigs v0 vs :
  Config.supportedVersions (config c) = v0 :: vs →
  ∃ evs,
    log (SayHello CFCipherSuites internal c sigs).2 =
      log c ++
      Wrote recordTypeHandshake
        (marshal (makeHello (config c) v0 (internal <$> sigs))) :: evs
    ∧ writes evs = []
    ∧ (1 ≤ length evs ≤ 4)%nat
    ∧ config (SayHello CFCipherSuites internal c sigs).2 = config c
    ∧ writeFault (SayHello CFCipherSuites internal c sigs).2 = writeFault c.
Proof.
  destruct c as [cfg wf inc lg]; simpl. intros Hv. start Hv.
  destruct inc as [| [s | [sh | | | |]] inc]; simpl; try leaf.
  destruct inc as [| [s | [| cm | | |]] inc]; simpl; try leaf.
  destruct (length (certificateMsg.certificates cm) =? 0)%nat; simpl;
    [leaf |].
  destruct (serverHelloMsg.ocspStapling sh); simpl.
  - destruct inc as [| [s | [| | st | |]] inc]; simpl; try leaf.
    destruct (EllipticCurve (lookupSuite CFCipherSuites (serverHelloMsg.cipherSuite sh)));
      simpl; [| leaf].
    destruct inc as [| [s | [| | | skx |]] inc]; simpl; try leaf.
    repeat case_match; leaf.
  - destruct (EllipticCurve (lookupSuite CFCipherSuites (serverHelloMsg.cipherSuite sh)));
      simpl; [| leaf].
    destruct inc as [| [s | [| | | skx |]] inc]; simpl; try leaf.
    repeat case_match; leaf.
Qed.

(** A run that ended in a failed read: that read is the last event, and the
    failure is the error returned. *)
Ltac failed_read :=
  solve [eexists; split; [log_eq |];
         let s := fresh "s" in let Hs := fresh "Hs" in
         intros s Hs; rewrite ?elem_of_cons, ?elem_of_nil in Hs;
         repeat match goal with H : _ ∨ _ |- _ => destruct H as [H | H] end;
         try discriminate; try contradiction; simplify_eq;
         split; first [reflexivity | eexists; reflexivity]].

(** A read that fails ends the probe: no read follows it, and the probe
    returns the failure of the transport, unchanged, as its error.  A peer
    that stops sending is such a failure. *)
Theorem failed_read_is_returned c sigs v0 vs :
  Config.supportedVersions (config c) = v0 :: vs →
  ∃ evs,
    log (SayHello CFCipherSuites internal c sigs).2 =
      log c ++
      Wrote recordTypeHandshake
        (marshal (makeHello (config c) v0 (internal <$> sigs))) :: evs
    ∧ ∀ s, ReadMsg (inl s) ∈ evs →
        last evs = Some (ReadMsg (inl s))
        ∧ ∃ certs0,
            (SayHello CFCipherSuites internal c sigs).1
              = failed certs0 (transportError s).
Proof.
  destruct c as [cfg wf inc lg]; simpl. intros Hv. start Hv.
  destruct inc as [| [s | [sh | | | |]] inc]; simpl; try failed_read.
  destruct inc as [| [s | [| cm | | |]] inc]; simpl; try failed_read.
  destruct (length (certificateMsg.certificates cm) =? 0)%nat; simpl;
    [failed_read |].
  destruct (serverHelloMsg.ocspStapling sh); simpl.
  - destruct inc as [| [s | [| | st | |]] inc]; simpl; try failed_read.
    destruct (EllipticCurve (lookupSuite CFCipherSuites (serverHelloMsg.cipherSuite sh)));
      simpl; [| failed_read].
    destruct inc as [| [s | [| | | skx |]] inc]; simpl; try failed_read.
    repeat case_match; failed_read.
  - destruct (EllipticCurve (lookupSuite CFCipherSuites (serverHelloMsg.cipherSuite sh)));
      simpl; [| failed_read].
    destruct inc as [| [s | [| | | skx |]] inc]; simpl; try failed_read.
    repeat case_match; failed_read.
Qed.

(** The first message must be a ServerHello: any other message is refused
    with an unexpected-message error that names it.  All results are zero,
    that message is the only one read, and the rest stays unread. *)
Theorem first_message_must_be_server_hello c sigs v0 vs m rest :
  Config.supportedVersions (config c) = v0 :: vs →
  incoming c = inr m :: rest →
  (∀ sh, m ≠ ServerHello sh) →
  (SayHello CFCipherSuites internal c sigs).1 =
    failed [] (unexpectedMessageError (NilPointer serverHelloT) (Message m))
  ∧ incoming (SayHello CFCipherSuites internal c sigs).2 = rest
  ∧ reads (log (SayHello CFCipherSuites internal c sigs).2) =
      reads (log c) ++ [inr m].
Proof.
  destruct c as [cfg wf inc lg]; simpl. intros Hv -> Hm. start Hv.
  destruct m as [sh | | | |];
    try (repeat split; simpl; rewrite ?reads_app; simpl;
         rewrite <- ?app_assoc; reflexivity).
  destruct (Hm sh); reflexivity.
Qed.

(** A run that ended in an error, or in a panic, is no success. *)
Ltac no_success :=
  solve [let Heq := fresh in let He := fresh in
         unfold failed; intros Heq He; simplify_eq/=].

(** Closes a run that succeeded, once the messages read are named. *)
Ltac flight :=
  simpl; rewrite !reads_app; simpl; rewrite <- !app_assoc;
  repeat match goal with H : _ = _ :> bool |- _ => rewrite H end; done.

(** A successful probe has read a ServerHello, a Certificate with at least
    one entry, one CertificateStatus exactly when the ServerHello
    acknowledged stapling, and one ServerKeyExchange exactly when the suite
    is an elliptic-curve suite: in this order, nothing else, and what the peer
    sent after them is still unread.  The certificates, the suite and the
    version it returns are those of the Certificate and the ServerHello. *)
Theorem success_reads_exactly_its_flight c sigs r c' :
  SayHello CFCipherSuites internal c sigs = (Returned r, c') →
  err r = None →
  ∃ sh cm sts ks,
    incoming c =
      inr (ServerHello sh) :: inr (Certificate cm) ::
      (inr ∘ CertificateStatus <$> sts) ++
      (inr ∘ ServerKeyExchange <$> ks) ++ incoming c'
    ∧ reads (log c') =
        reads (log c) ++
        inr (ServerHello sh) :: inr (Certificate cm) ::
        (inr ∘ CertificateStatus <$> sts) ++ (inr ∘ ServerKeyExchange <$> ks)
    ∧ length sts = (if serverHelloMsg.ocspStapling sh then 1 else 0)%nat
    ∧ length ks =
        (if EllipticCurve (lookupSuite CFCipherSuites (serverHelloMsg.cipherSuite sh))
         then 1 else 0)%nat
    ∧ certs r = certificateMsg.certificates cm
    ∧ certs r ≠ []
    ∧ cipherID r = serverHelloMsg.cipherSuite sh
    ∧ version r = serverHelloMsg.vers sh.
Proof.
  destruct c as [cfg wf inc lg]; simpl.
  unfold SayHello. simpl.
  destruct (Config.supportedVersions cfg) as [| v0 vs] eqn:Hv; [no_success |].
  unfold sayHello, writeRecord; simpl.
  unfold readCertificate, readCertificateStatus, finish, exchangeKeys,
    readHandshake; simpl.
  destruct inc as [| [s | [sh | | | |]] inc]; simpl; try no_success.
  destruct inc as [| [s | [| cm | | |]] inc]; simpl; try no_success.
  destruct (Nat.eqb_spec (length (certificateMsg.certificates cm)) 0) as [Hz | Hnz];
    simpl; [no_success |].
  assert (Hcm : certificateMsg.certificates cm ≠ []).
  { intros Hnil. rewrite Hnil in Hnz. done. }
  destruct (serverHelloMsg.ocspStapling sh) eqn:Hocsp; simpl.
  - destruct inc as [| [s | [| | st | |]] inc]; simpl; try no_success.
    destruct (EllipticCurve (lookupSuite CFCipherSuites (serverHelloMsg.cipherSuite sh)))
      eqn:Hec; simpl.
    + destruct inc as [| [s | [| | | skx |]] inc]; simpl; try no_success.
      repeat case_match; try no_success;
        (intros [= <- <-] _; exists sh, cm, [st], [skx]; flight).
    + intros [= <- <-] _. exists sh, cm, [st], []. flight.
  - destruct (EllipticCurve (lookupSuite CFCipherSuites (serverHelloMsg.cipherSuite sh)))
      eqn:Hec; simpl.
    + destruct inc as [| [s | [| | | skx |]] inc]; simpl; try no_success.
      repeat case_match; try no_success;
        (intros [= <- <-] _; exists sh, cm, [], [skx]; flight).
    + intros [= <- <-] _. exists sh, cm, [], []. flight.
Qed.

(** The only index that can be out of range is [skx.raw[0]]: when every
    ServerKeyExchange the peer sends has a non-empty raw encoding, a probe
    returns and does not panic.  The reads of [skx.key] are covered by the
    length check before them. *)
Theorem no_panic_with_raw_encoding c sigs :
  (∀ skx, inr (ServerKeyExchange skx) ∈ incoming c →
          serverKeyExchangeMsg.raw skx ≠ []) →
  ∃ r, (SayHello CFCipherSuites internal c sigs).1 = Returned r.
Proof.
  destruct c as [cfg wf inc lg]; simpl. intros Hraw.
  unfold SayHello. simpl.
  destruct (Config.supportedVersions cfg) as [| v0 vs] eqn:Hv;
    [eexists; reflexivity |].
  unfold sayHello, writeRecord; simpl.
  unfold readCertificate, readCertificateStatus, finish, exchangeKeys,
    readHandshake; simpl.
  destruct inc as [| [s | [sh | | | |]] inc]; simpl; try (eexists; reflexivity).
  destruct inc as [| [s | [| cm | | |]] inc]; simpl; try (eexists; reflexivity).
  destruct (length (certificateMsg.certificates cm) =? 0)%nat; simpl;
    [eexists; reflexivity |].
  destruct (serverHelloMsg.ocspStapling sh); simpl.
  - destruct inc as [| [s | [| | st | |]] inc]; simpl; try (eexists; reflexivity).
    destruct (EllipticCurve (lookupSuite CFCipherSuites (serverHelloMsg.cipherSuite sh)));
      simpl; [| eexists; reflexivity].
    destruct inc as [| [s | [| | | skx |]] inc]; simpl; try (eexists; reflexivity).
    assert (Hne : serverKeyExchangeMsg.raw skx ≠ []).
    { apply Hraw. rewrite !elem_of_cons. auto. }
    destruct (serverKeyExchangeMsg.raw skx) as [| raw0 raw']; [done |]. simpl.
    destruct (negb (Byte.eqb raw0 typeServerKeyExchange)); [eexists; reflexivity |].
    destruct (serverKeyExchangeMsg.key skx) as [| k0 [| k1 [| k2 [| k3 ks]]]];
      simpl; eexists; reflexivity.
  - destruct (EllipticCurve (lookupSuite CFCipherSuites (serverHelloMsg.cipherSuite sh)));
      simpl; [| eexists; reflexivity].
    destruct inc as [| [s | [| | | skx |]] inc]; simpl; try (eexists; reflexivity).
    assert (Hne : serverKeyExchangeMsg.raw skx ≠ []).
    { apply Hraw. rewrite !elem_of_cons. auto. }
    destruct (serverKeyExchangeMsg.raw skx) as [| raw0 raw']; [done |]. simpl.
    destruct (negb (Byte.eqb raw0 typeServerKeyExchange)); [eexists; reflexivity |].
    destruct (serverKeyExchangeMsg.key skx) as [| k0 [| k1 [| k2 [| k3 ks]]]];
      simpl; eexists; reflexivity.
Qed.

(** Closes a run whose curve results are known: both come from bytes. *)
Ltac in_range :=
  solve [unfold failed; let Heq := fresh in intros Heq; simplify_eq/=;
         rewrite ?be16;
         repeat match goal with
           | b : byte |- _ =>
               lazymatch goal with
               | _ : 0 ≤ uint16 b < 256 |- _ => fail
               | _ => pose proof (uint16_range b)
               end
           end;
         repeat match goal with
           | H : (_ =? _) = true |- _ => apply Z.eqb_eq in H
           end;
         lia].

(** Whatever a probe returns, [curveType] fits a byte and [curveID] fits 16
    bits, and a [curveID] other than zero comes only with [curveType] 3, the
    named-curve tag. *)
Theorem curve_results_in_range c sigs r c' :
  SayHello CFCipherSuites internal c sigs = (Returned r, c') →
  0 ≤ curveType r < 256
  ∧ 0 ≤ curveID r < 65536
  ∧ (curveID r ≠ 0 → curveType r = 3).
Proof.
  destruct c as [cfg wf inc lg]; simpl.
  unfold SayHello. simpl.
  destruct (Config.supportedVersions cfg) as [| v0 vs] eqn:Hv; [in_range |].
  unfold sayHello, writeRecord; simpl.
  unfold readCertificate, readCertificateStatus, finish, exchangeKeys,
    readHandshake; simpl.
  destruct inc as [| [s | [sh | | | |]] inc]; simpl; try in_range.
  destruct inc as [| [s | [| cm | | |]] inc]; simpl; try in_range.
  destruct (length (certificateMsg.certificates cm) =? 0)%nat; simpl;
    [in_range |].
  destruct (serverHelloMsg.ocspStapling sh); simpl.
  - destruct inc as [| [s | [| | st | |]] inc]; simpl; try in_range.
    destruct (EllipticCurve (lookupSuite CFCipherSuites (serverHelloMsg.cipherSuite sh)));
      simpl; [| in_range].
    destruct inc as [| [s | [| | | skx |]] inc]; simpl; try in_range.
    repeat case_match; in_range.
  - destruct (EllipticCurve (lookupSuite CFCipherSuites (serverHelloMsg.cipherSuite sh)));
      simpl; [| in_range].
    destruct inc as [| [s | [| | | skx |]] inc]; simpl; try in_range.
    repeat case_match; in_range.
Qed.

(** What goes out: the one record written is a ClientHello that offers only
    the compression method "none" and the uncompressed point format, asks
    for a stapled OCSP response, announces secure renegotiation, and carries
    a 32-byte random.  Server name, curves and cipher suites are those of the
    configuration, and the signature algorithms are the caller's pairs,
    each converted, in the caller's order. *)
Theorem hello_as_written c sigs v0 vs :
  Config.supportedVersions (config c) = v0 :: vs →
  ∃ hello,
    writes (log (SayHello CFCipherSuites internal c sigs).2) =
      writes (log c) ++ [(recordTypeHandshake, marshal hello)]
    ∧ clientHelloMsg.compressionMethods hello = [compressionNone]
    ∧ clientHelloMsg.supportedPoints hello = [pointFormatUncompressed]
    ∧ clientHelloMsg.ocspStapling hello = true
    ∧ clientHelloMsg.secureRenegotiationSupported hello = true
    ∧ length (clientHelloMsg.random hello) = 32%nat
    ∧ clientHelloMsg.serverName hello = Config.ServerName (config c)
    ∧ clientHelloMsg.supportedCurves hello = Config.curvePreferences (config c)
    ∧ clientHelloMsg.cipherSuites hello = Config.cipherSuites (config c)
    ∧ clientHelloMsg.supportedSignatureAlgorithms hello = internal <$> sigs
    ∧ length (clientHelloMsg.supportedSignatureAlgorithms hello) = length sigs.
Proof.
  intros Hv. eexists. split; [eapply SayHello_writes; exact Hv |].
  simpl. rewrite length_fmap. done.
Qed.

(** A ServerKeyExchange whose raw encoding does not start with the type byte
    of that message is refused, however long its key-exchange data: the
    probe fails with an unexpected-message error that expects this
    ServerKeyExchange, and keeps the certificates. *)
Theorem wrong_type_byte_is_refused c sigs v0 vs sh cm st skx raw0 rest :
  Config.supportedVersions (config c) = v0 :: vs →
  incoming c =
    inr (ServerHello sh) :: inr (Certificate cm) ::
    statusFlight sh st ++ inr (ServerKeyExchange skx) :: rest →
  certificateMsg.certificates cm ≠ [] →
  EllipticCurve (lookupSuite CFCipherSuites (serverHelloMsg.cipherSuite sh)) = true →
  serverKeyExchangeMsg.raw skx !! 0%nat = Some raw0 →
  raw0 ≠ typeServerKeyExchange →
  ∃ got,
    (SayHello CFCipherSuites internal c sigs).1 =
      failed (certificateMsg.certificates cm)
        (unexpectedMessageError (Message (ServerKeyExchange skx)) got).
Proof.
  destruct c as [cfg wf inc lg]; simpl. intros Hv -> Hcm Hec Hraw Hne.
  exists (Message (if serverHelloMsg.ocspStapling sh
                   then CertificateStatus st else Certificate cm)).
  start Hv.
  destruct (Nat.eqb_spec (length (certificateMsg.certificates cm)) 0) as [Hz | _];
    [apply nil_length_inv in Hz; done |].
  assert (Heqb : Byte.eqb raw0 typeServerKeyExchange = false).
  { destruct (Byte.eqb raw0 typeServerKeyExchange) eqn:E; [| reflexivity].
    apply Byte.byte_dec_bl in E. done. }
  unfold statusFlight.
  destruct (serverHelloMsg.ocspStapling sh); simpl;
    rewrite Hec; simpl; rewrite Hraw; simpl; rewrite Heqb; reflexivity.
Qed.


End Runs.

(** ** The runs of the sample peers *)

Lemma one_write_then_up_to_four_reads_witness :
  Config.supportedVersions (config Peers.staplingEcdhe) = [0x0304; VersionTLS12]
  ∧ ∃ evs,
      log (SayHello Sample.suites Sample.internal Peers.staplingEcdhe []).2 =
        log Peers.staplingEcdhe ++
        Wrote recordTypeHandshake
          (marshal (makeHello (config Peers.staplingEcdhe) 0x0304
                      (Sample.internal <$> []))) :: evs
      ∧ writes evs = []
      ∧ (1 ≤ length evs ≤ 4)%nat
      ∧ config (SayHello Sample.suites Sample.internal Peers.staplingEcdhe []).2
        = config Peers.staplingEcdhe
      ∧ writeFault (SayHello Sample.suites Sample.internal Peers.staplingEcdhe []).2
        = writeFault Peers.staplingEcdhe.
Proof.
  split; [reflexivity |].
  apply (one_write_then_up_to_four_reads Sample.suites _ Sample.internal
           Peers.staplingEcdhe [] 0x0304 [VersionTLS12]).
  reflexivity.
Defined.

Lemma failed_read_is_returned_witness :
  Config.supportedVersions (config Peers.resetAfterCertificate) = [VersionTLS12]
  ∧ ∃ evs,
      log (SayHello Sample.suites Sample.internal Peers.resetAfterCertificate []).2 =
        log Peers.resetAfterCertificate ++
        Wrote recordTypeHandshake
          (marshal (makeHello (config Peers.resetAfterCertificate) VersionTLS12
                      (Sample.internal <$> []))) :: evs
      ∧ ∀ s, ReadMsg (inl s) ∈ evs →
          last evs = Some (ReadMsg (inl s))
          ∧ ∃ certs0,
              (SayHello Sample.suites Sample.internal
                 Peers.resetAfterCertificate []).1
                = failed certs0 (transportError s).
Proof.
  split; [reflexivity |].
  apply (failed_read_is_returned Sample.suites _ Sample.internal
           Peers.resetAfterCertificate [] VersionTLS12 []).
  reflexivity.
Defined.

Lemma first_message_must_be_server_hello_witness :
  (SayHello Sample.suites Sample.internal Peers.skipsHello []).1 =
    failed [] (unexpectedMessageError (NilPointer serverHelloT)
                 (Message (Certificate Sample.chain)))
  ∧ incoming (SayHello Sample.suites Sample.internal Peers.skipsHello []).2
    = [inr Sample.serverHelloDone]
  ∧ reads (log (SayHello Sample.suites Sample.internal Peers.skipsHello []).2)
    = [inr (Certificate Sample.chain)].
Proof.
  apply (first_message_must_be_server_hello Sample.suites _ Sample.internal
           Peers.skipsHello [] VersionTLS12 [] (Certificate Sample.chain)
           [inr Sample.serverHelloDone] eq_refl eq_refl).
  discriminate.
Defined.

Lemma success_reads_exactly_its_flight_witness :
  ∃ r c',
    SayHello Sample.suites Sample.internal Peers.staplingEcdhe [] = (Returned r, c')
    ∧ err r = None
    ∧ ∃ sh cm sts ks,
        incoming Peers.staplingEcdhe =
          inr (ServerHello sh) :: inr (Certificate cm) ::
          (inr ∘ CertificateStatus <$> sts) ++
          (inr ∘ ServerKeyExchange <$> ks) ++ incoming c'
        ∧ reads (log c') =
            reads (log Peers.staplingEcdhe) ++
            inr (ServerHello sh) :: inr (Certificate cm) ::
            (inr ∘ CertificateStatus <$> sts) ++ (inr ∘ ServerKeyExchange <$> ks)
        ∧ length sts = (if serverHelloMsg.ocspStapling sh then 1 else 0)%nat
        ∧ length ks =
            (if EllipticCurve (lookupSuite Sample.suites (serverHelloMsg.cipherSuite sh))
             then 1 else 0)%nat
        ∧ certs r = certificateMsg.certificates cm
        ∧ certs r ≠ []
        ∧ cipherID r = serverHelloMsg.cipherSuite sh
        ∧ version r = serverHelloMsg.vers sh.
Proof.
  do 2 eexists. split; [reflexivity |]. split; [reflexivity |].
  apply (success_reads_exactly_its_flight Sample.suites _ Sample.internal
           Peers.staplingEcdhe [] _ _ eq_refl eq_refl).
Defined.

Lemma no_panic_with_raw_encoding_witness :
  (∀ skx, inr (ServerKeyExchange skx) ∈ incoming Peers.mistypedKeyExchange →
          serverKeyExchangeMsg.raw skx ≠ [])
  ∧ ∃ r, (SayHello Sample.suites Sample.internal Peers.mistypedKeyExchange []).1
         = Returned r.
Proof.
  assert (H : ∀ skx,
    inr (ServerKeyExchange skx) ∈ incoming Peers.mistypedKeyExchange →
    serverKeyExchangeMsg.raw skx ≠ []).
  { intros skx Hin. simpl in Hin.
    rewrite !elem_of_cons, elem_of_nil in Hin.
    destruct Hin as [Hin | [Hin | [Hin | []]]]; try discriminate Hin.
    injection Hin as ->. discriminate. }
  split; [exact H |].
  exact (no_panic_with_raw_encoding Sample.suites _ Sample.internal
           Peers.mistypedKeyExchange [] H).
Defined.

Lemma curve_results_in_range_witness :
  ∃ r c',
    SayHello Sample.suites Sample.internal Peers.staplingEcdhe [] = (Returned r, c')
    ∧ 0 ≤ curveType r < 256
    ∧ 0 ≤ curveID r < 65536
    ∧ (curveID r ≠ 0 → curveType r = 3).
Proof.
  do 2 eexists. split; [reflexivity |].
  apply (curve_results_in_range Sample.suites _ Sample.internal
           Peers.staplingEcdhe [] _ _ eq_refl).
Defined.

Lemma hello_as_written_witness :
  Config.supportedVersions (config Peers.staplingEcdhe) = [0x0304; VersionTLS12]
  ∧ ∃ hello,
      writes (log (SayHello Sample.suites Sample.internal Peers.staplingEcdhe
                     [(x04, x01); (x05, x03)]).2) =
        writes (log Peers.staplingEcdhe) ++ [(recordTypeHandshake, marshal hello)]
      ∧ clientHelloMsg.compressionMethods hello = [compressionNone]
      ∧ clientHelloMsg.supportedPoints hello = [pointFormatUncompressed]
      ∧ clientHelloMsg.ocspStapling hello = true
      ∧ clientHelloMsg.secureRenegotiationSupported hello = true
      ∧ length (clientHelloMsg.random hello) = 32%nat
      ∧ clientHelloMsg.serverName hello = Config.ServerName (config Peers.staplingEcdhe)
      ∧ clientHelloMsg.supportedCurves hello
        = Config.curvePreferences (config Peers.staplingEcdhe)
      ∧ clientHelloMsg.cipherSuites hello
        = Config.cipherSuites (config Peers.staplingEcdhe)
      ∧ clientHelloMsg.supportedSignatureAlgorithms hello
        = Sample.internal <$> [(x04, x01); (x05, x03)]
      ∧ length (clientHelloMsg.supportedSignatureAlgorithms hello)
        = length [(x04, x01); (x05, x03)].
Proof.
  split; [reflexivity |].
  apply (hello_as_written Sample.suites _ Sample.internal
           Peers.staplingEcdhe [(x04, x01); (x05, x03)] 0x0304 [VersionTLS12]).
  reflexivity.
Defined.

Lemma wrong_type_byte_is_refused_witness :
  ∃ got,
    (SayHello Sample.suites Sample.internal Peers.mistypedKeyExchange []).1 =
      failed [Sample.cert1]
        (unexpectedMessageError (Message (ServerKeyExchange Peers.mistyped)) got).
Proof.
  apply (wrong_type_byte_is_refused Sample.suites _ Sample.internal
           Peers.mistypedKeyExchange [] VersionTLS12 []
           (Sample.hello Sample.ECDHE_RSA_AES128_GCM false) Sample.chain
           Sample.status Peers.mistyped x0b [] eq_refl eq_refl).
  - discriminate.
  - reflexivity.
  - reflexivity.
  - discriminate.
Defined.

Lemma not_certificate_is_refused_witness :
  (SayHello Sample.suites Sample.internal Peers.skipsCertificate []).1 =
    failed [] (unexpectedMessageError (NilPointer certificateT)
                 (Message Sample.serverHelloDone)).
Proof.
  apply (not_certificate_is_refused Sample.suites _ Sample.internal
           Peers.skipsCertificate [] VersionTLS12 []
           (Sample.hello Sample.RSA_AES128_GCM false)
           Sample.serverHelloDone [] eq_refl eq_refl).
  discriminate.
Defined.

Lemma empty_certificate_is_refused_witness :
  (SayHello Sample.suites Sample.internal Peers.emptyChain []).1 =
    failed []
      (unexpectedMessageError
         (Message (Certificate {| certificateMsg.certificates := [] |}))
         (Message (Certificate {| certificateMsg.certificates := [] |}))).
Proof.
  apply (empty_certificate_is_refused Sample.suites _ Sample.internal
           Peers.emptyChain [] VersionTLS12 []
           (Sample.hello Sample.RSA_AES128_GCM false)
           {| certificateMsg.certificates := [] |}
           [inr Sample.serverHelloDone] eq_refl eq_refl eq_refl).
Defined.

Lemma not_key_exchange_is_refused_witness :
  (SayHello Sample.suites Sample.internal Peers.skipsKeyExchange []).1 =
    failed [Sample.cert1]
      (unexpectedMessageError (NilPointer serverKeyExchangeT)
         (Message Sample.serverHelloDone)).
Proof.
  apply (not_key_exchange_is_refused Sample.suites _ Sample.internal
           Peers.skipsKeyExchange [] VersionTLS12 []
           (Sample.hello Sample.ECDHE_RSA_AES128_GCM false) Sample.chain
           Sample.status Sample.serverHelloDone [] eq_refl eq_refl).
  - discriminate.
  - reflexivity.
  - discriminate.
Defined.


